(** * ResponsePane: response loading and body export

    A shallow embedding of [app/ui/components/ResponsePane.js]: the
    component's lifecycle hooks, its response loader [_getResponse], the
    download handler [_handleDownloadResponseBody] and the part of [render]
    that decides which response is displayed.

    JavaScript strings are embedded as [string]; a character stands for one
    UTF-16 code unit in the range U+0000..U+00FF.  Raw bytes are
    [list byte]. *)

From Stdlib Require Import NArith ZArith Ascii String List.
From Stdlib.Strings Require Import Byte.
From stdpp Require Import base option list strings gmap.

Local Open Scope string_scope.

(** ** JavaScript values *)
Module JS.

(** [!!s] for an optional string: [undefined], [null] and [''] are falsy. *)
Definition truthy (s : option string) : bool :=
  match s with
  | Some (String _ _) => true
  | _ => false
  end.

(** [a || b] on strings where [a] may be [false]/[undefined]. *)
Definition or_else (a : option string) (b : string) : string :=
  if truthy a then default b a else b.

Definition lower_ascii (c : ascii) : ascii :=
  let n := N_of_ascii c in
  if ((65 <=? n) && (n <=? 90))%N then ascii_of_N (n + 32) else c.

Fixpoint toLowerCase (s : string) : string :=
  match s with
  | EmptyString => EmptyString
  | String c s' => String (lower_ascii c) (toLowerCase s')
  end.

Definition code_units (s : string) : list N :=
  map N_of_ascii (list_ascii_of_string s).

End JS.

(** ** Node's Buffer

    [Buffer] is part of the host runtime, not of the sources.  The model
    follows its documented behaviour: the constructor resolves the encoding
    name (case-insensitively, the empty name meaning utf8), throws a
    [TypeError] when the name is unknown, and otherwise decodes the string
    with a total, lenient decoder. *)
Module Buffer.

Inductive Encoding := Utf8 | Ucs2 | Latin1 | Ascii | Base64 | Hex.

Definition byte_of_N (n : N) : byte := byte_of_ascii (ascii_of_N n).

(** Name resolution of the constructor's second argument. *)
Definition parseEncoding (enc : string) : option Encoding :=
  if String.eqb enc "" then Some Utf8 else
  let e := JS.toLowerCase enc in
  if String.eqb e "utf8" || String.eqb e "utf-8" then Some Utf8
  else if String.eqb e "ucs2" || String.eqb e "ucs-2"
       || String.eqb e "utf16le" || String.eqb e "utf-16le" then Some Ucs2
  else if String.eqb e "latin1" || String.eqb e "binary" then Some Latin1
  else if String.eqb e "ascii" then Some Ascii
  else if String.eqb e "base64" then Some Base64
  else if String.eqb e "hex" then Some Hex
  else None.

(** utf8 of a code unit below U+0100: one byte below U+0080, else two. *)
Definition utf8_unit (c : N) : list byte :=
  if (c <? 128)%N then [byte_of_N c]
  else [byte_of_N (N.lor 192 (N.shiftr c 6));
        byte_of_N (N.lor 128 (N.land c 63))].

Definition utf8Write (s : string) : list byte :=
  concat (map utf8_unit (JS.code_units s)).

Definition ucs2Write (s : string) : list byte :=
  concat (map (fun c => [byte_of_N (N.land c 255); byte_of_N (N.shiftr c 8)])
              (JS.code_units s)).

Definition latin1Write (s : string) : list byte :=
  map (fun c => byte_of_N (N.land c 255)) (JS.code_units s).

(** The value of a base64 digit; both the standard and the URL-safe
    alphabet are accepted. *)
Definition unbase64 (c : N) : option N :=
  if ((65 <=? c) && (c <=? 90))%N then Some (c - 65)%N
  else if ((97 <=? c) && (c <=? 122))%N then Some (c - 71)%N
  else if ((48 <=? c) && (c <=? 57))%N then Some (c + 4)%N
  else if ((c =? 43) || (c =? 45))%N then Some 62%N
  else if ((c =? 47) || (c =? 95))%N then Some 63%N
  else None.

(** Digits up to the first ['=']; other characters are skipped. *)
Fixpoint sextets (cs : list N) : list N :=
  match cs with
  | [] => []
  | c :: cs' =>
      if (c =? 61)%N then []
      else match unbase64 c with
           | Some v => v :: sextets cs'
           | None => sextets cs'
           end
  end.

Fixpoint base64_groups (fuel : nat) (ss : list N) : list byte :=
  match fuel with
  | O => []
  | S fuel' =>
      match ss with
      | a :: b :: c :: d :: rest =>
          byte_of_N (N.lor (N.shiftl a 2) (N.shiftr b 4))
          :: byte_of_N (N.lor (N.shiftl (N.land b 15) 4) (N.shiftr c 2))
          :: byte_of_N (N.lor (N.shiftl (N.land c 3) 6) d)
          :: base64_groups fuel' rest
      | [a; b; c] =>
          [byte_of_N (N.lor (N.shiftl a 2) (N.shiftr b 4));
           byte_of_N (N.lor (N.shiftl (N.land b 15) 4) (N.shiftr c 2))]
      | [a; b] => [byte_of_N (N.lor (N.shiftl a 2) (N.shiftr b 4))]
      | _ => []
      end
  end.

Definition base64Write (s : string) : list byte :=
  let ss := sextets (JS.code_units s) in
  base64_groups (S (length ss)) ss.

Definition unhex (c : N) : option N :=
  if ((48 <=? c) && (c <=? 57))%N then Some (c - 48)%N
  else if ((97 <=? c) && (c <=? 102))%N then Some (c - 87)%N
  else if ((65 <=? c) && (c <=? 70))%N then Some (c - 55)%N
  else None.

(** Pairs of hex digits; decoding stops at the first pair that is not
    one, and a trailing single digit is dropped. *)
Fixpoint hex_pairs (fuel : nat) (cs : list N) : list byte :=
  match fuel with
  | O => []
  | S fuel' =>
      match cs with
      | h :: l :: rest =>
          match unhex h, unhex l with
          | Some a, Some b =>
              byte_of_N (N.lor (N.shiftl a 4) b) :: hex_pairs fuel' rest
          | _, _ => []
          end
      | _ => []
      end
  end.

Definition hexWrite (s : string) : list byte :=
  let cs := JS.code_units s in hex_pairs (S (length cs)) cs.

Definition write (e : Encoding) (s : string) : list byte :=
  match e with
  | Utf8 => utf8Write s
  | Ucs2 => ucs2Write s
  | Latin1 | Ascii => latin1Write s
  | Base64 => base64Write s
  | Hex => hexWrite s
  end.

Inductive Exn := TypeError (msg : string).

(** Modelled from the spec: the [Buffer] constructor belongs to the host
    runtime and is not among the sources.  [new Buffer(string, encoding)]
    decodes the body payload from the textual encoding its tag names into
    a raw byte sequence; a tag that names no encoding makes the
    constructor throw. *)
Definition new (s enc : string) : Exn + list byte :=
  match parseEncoding enc with
  | Some e => inr (write e s)
  | None => inl (TypeError ("Unknown encoding: " ++ enc))
  end.

Definition bytes_of_string (s : string) : list byte :=
  map byte_of_ascii (list_ascii_of_string s).

End Buffer.

(** ** The mime-types package

    [mime.extension] is a dependency, not part of the sources; its table is
    a parameter of the development.  The function extracts the media type
    in front of the parameters, lower-cases it and returns the first
    extension the table lists for it, or [false] ([None]). *)
Module Mime.

Definition Db := list (string * list string).

Definition is_space (c : ascii) : bool :=
  let n := N_of_ascii c in
  (((9 <=? n) && (n <=? 13)) || (n =? 32) || (n =? 160))%N.

Fixpoint skip_spaces (s : string) : string :=
  match s with
  | String c s' => if is_space c then skip_spaces s' else s
  | EmptyString => EmptyString
  end.

Fixpoint take_type (s : string) : string :=
  match s with
  | String c s' =>
      if is_space c || Ascii.eqb c ";" then EmptyString
      else String c (take_type s')
  | EmptyString => EmptyString
  end.

(** The media type: leading white space is skipped and the type ends at
    the first [;] or white space. *)
Definition extract_type (s : string) : string := take_type (skip_spaces s).

Fixpoint lookup (db : Db) (type : string) : option (list string) :=
  match db with
  | [] => None
  | (t, exts) :: db' => if String.eqb t type then Some exts else lookup db' type
  end.

(** Modelled from the spec: [mime.extension] belongs to the mime-types
    package, which is not among the sources.  It maps a content-type string
    to a filename extension or none: the first extension the table lists
    for the media type, [false] for an empty or unlisted type. *)
Definition extension (db : Db) (type : string) : option string :=
  if String.eqb type "" then None
  else match lookup db (JS.toLowerCase (extract_type type)) with
       | Some (ext :: _) => Some ext
       | _ => None
       end.

(** An excerpt of the table the package ships. *)
Definition standard_db : Db :=
  [ ("application/json", ["json"; "map"]);
    ("application/xml", ["xml"; "xsl"; "xsd"; "rng"]);
    ("application/pdf", ["pdf"]);
    ("application/octet-stream", ["bin"; "dms"; "lrf"; "mar"; "so"]);
    ("text/plain", ["txt"; "text"; "conf"; "def"; "list"; "log"; "in"; "ini"]);
    ("text/html", ["html"; "htm"; "shtml"]);
    ("text/css", ["css"]);
    ("image/png", ["png"]);
    ("image/jpeg", ["jpeg"; "jpg"; "jpe"]) ].

End Mime.

(** ** The models the component reads *)
Module Request.
Record t := { _id : string }.
End Request.

Module Response.
Record t := {
  _id : string;
  parentId : string;
  created : Z;
  statusCode : Z;
  statusMessage : string;
  elapsedTime : Z;
  bytesRead : Z;
  body : string;
  encoding : string;
  contentType : string;
  headers : list (string * string);
  error : option string;
  url : string
}.

Definition set_error (e : option string) (r : t) : t :=
  {| _id := _id r; parentId := parentId r; created := created r;
     statusCode := statusCode r; statusMessage := statusMessage r;
     elapsedTime := elapsedTime r; bytesRead := bytesRead r;
     body := body r; encoding := encoding r; contentType := contentType r;
     headers := headers r; error := e; url := url r |}.
End Response.

Module Models.

(** The response store: every persisted response, in storage order. *)
Definition Db := list Response.t.

Definition matches (parentId : string) (r : Response.t) : bool :=
  String.eqb (Response.parentId r) parentId.

Definition newer (acc : option Response.t) (r : Response.t) : option Response.t :=
  match acc with
  | None => Some r
  | Some a => if (Response.created a <? Response.created r)%Z then Some r else Some a
  end.

(** Modelled from the spec: [models.response.getLatestByParentId] lives in
    [app/models], which is not among the sources.  Following the Response
    Loader contract it yields the most recently created response whose
    parent request identifier equals the given id, or absent when the
    store holds none; the creation time is the [created] field. *)
Definition getLatestByParentId (db : Db) (parentId : string) : option Response.t :=
  foldl (fun acc r => if matches parentId r then newer acc r else acc) None db.

End Models.

(** ** Host interfaces: the save dialog and the file system *)
Module Host.

Record FileFilter := { name : string; extensions : list string }.

Record SaveDialogOptions := {
  title : string;
  buttonLabel : string;
  filters : list FileFilter
}.

(** The error a file-system callback receives. *)
Record IOError := { code : string; message : string }.

(** The options object of [fs.writeFile]; the source passes [{}]. *)
Record WriteOptions := { flag : option string }.

Definition appending (o : WriteOptions) : bool :=
  match flag o with
  | Some (String "a" _) => true
  | _ => false
  end.

(** What a write that completes leaves on disk: with the default flag
    the file is replaced, with an append flag it is extended. *)
Definition written (fs : gmap string (list byte)) (filename : string)
    (data : list byte) (o : WriteOptions) : gmap string (list byte) :=
  if appending o then <[filename := (default [] (fs !! filename) ++ data)%list]> fs
  else <[filename := data]> fs.

End Host.

(** ** The component *)
Module ResponsePane.

Record Props := {
  request : option Request.t;
  previewMode : string;
  filter : string
}.

Record State := { response : option Response.t }.

(** Method bodies.  A method runs until it returns or hands a
    continuation to the host: the rest of an [async] function after
    [await], or the callback given to the dialog or to [fs.writeFile]. *)
Inductive Prog :=
| Return
| Throw (e : Buffer.Exn)
| SetState (s : State) (k : Prog)
| ConsoleWarn (msg : string) (arg : option Host.IOError) (k : Prog)
| TrackEvent (category action : string) (k : Prog)
| AwaitLatest (parentId : string) (k : option Response.t -> Prog)
| ShowSaveDialog (options : Host.SaveDialogOptions)
    (callback : option string -> Prog)
| WriteFile (filename : string) (data : list byte)
    (options : Host.WriteOptions) (callback : option Host.IOError -> Prog).

(** A continuation the host still holds. *)
Inductive Pending :=
| PLookup (parentId : string) (k : option Response.t -> Prog)
| PDialog (options : Host.SaveDialogOptions) (k : option string -> Prog)
| PWrite (filename : string) (data : list byte)
    (options : Host.WriteOptions) (k : option Host.IOError -> Prog).

(** What the host observes of the component. *)
Inductive Obs :=
| OWarn (msg : string) (arg : option Host.IOError)
| OTrack (category action : string)
| ODialog (options : Host.SaveDialogOptions)
| OWrite (filename : string) (data : list byte) (options : Host.WriteOptions)
| ORejected (e : Buffer.Exn).

Record World := {
  db : Models.Db;
  fs : gmap string (list byte);
  props : Props;
  state : State;
  pending : list Pending;   (* newest first *)
  log : list Obs            (* oldest first *)
}.

Definition set_state (s : State) (w : World) : World :=
  {| db := db w; fs := fs w; props := props w; state := s;
     pending := pending w; log := log w |}.

Definition set_props (p : Props) (w : World) : World :=
  {| db := db w; fs := fs w; props := p; state := state w;
     pending := pending w; log := log w |}.

Definition set_fs (f : gmap string (list byte)) (w : World) : World :=
  {| db := db w; fs := f; props := props w; state := state w;
     pending := pending w; log := log w |}.

Definition set_pending (ps : list Pending) (w : World) : World :=
  {| db := db w; fs := fs w; props := props w; state := state w;
     pending := ps; log := log w |}.

Definition observe (o : Obs) (w : World) : World :=
  {| db := db w; fs := fs w; props := props w; state := state w;
     pending := pending w; log := (log w ++ [o])%list |}.

Definition suspend (p : Pending) (w : World) : World :=
  set_pending (p :: pending w) w.

(** Run a method body up to its end or its next suspension. *)
Fixpoint exec (p : Prog) (w : World) : World :=
  match p with
  | Return => w
  | Throw e => observe (ORejected e) w
  | SetState s k => exec k (set_state s w)
  | ConsoleWarn msg arg k => exec k (observe (OWarn msg arg) w)
  | TrackEvent c a k => exec k (observe (OTrack c a) w)
  | AwaitLatest parentId k => suspend (PLookup parentId k) w
  | ShowSaveDialog options cb =>
      suspend (PDialog options cb) (observe (ODialog options) w)
  | WriteFile filename data options cb =>
      suspend (PWrite filename data options cb)
              (observe (OWrite filename data options) w)
  end.

Definition is_dialog (o : Obs) : bool :=
  match o with ODialog _ => true | _ => false end.
Definition is_write (o : Obs) : bool :=
  match o with OWrite _ _ _ => true | _ => false end.
Definition is_outcome (o : Obs) : bool :=
  match o with OTrack _ _ => true | _ => false end.
Definition is_rejection (o : Obs) : bool :=
  match o with ORejected _ => true | _ => false end.

Definition count (f : Obs -> bool) (l : list Obs) : nat :=
  length (List.filter f l).



Section Component.

Variable mime_db : Mime.Db.
Variable PREVIEW_MODE_SOURCE : string.

Definition _getResponse (request : option Request.t) : Prog :=
  match request with
  | None => SetState {| response := None |} Return
  | Some request =>
      AwaitLatest (Request._id request)
        (fun response => SetState {| response := response |} Return)
  end.

(** The callback given to [fs.writeFile]. *)
Definition on_written (err : option Host.IOError) : Prog :=
  match err with
  | Some e =>
      ConsoleWarn "Failed to save response body" (Some e)
        (TrackEvent "Response" "Save Failure" Return)
  | None => TrackEvent "Response" "Save Success" Return
  end.

(** The callback given to [showSaveDialog]. *)
Definition on_filename (bodyBuffer : list byte) (filename : option string) : Prog :=
  if negb (JS.truthy filename) then TrackEvent "Response" "Save Cancel" Return
  else WriteFile (default "" filename) bodyBuffer {| Host.flag := None |} on_written.

(** [mime.extension(contentType) || ''] *)
Definition default_extension (contentType : string) : string :=
  JS.or_else (Mime.extension mime_db contentType) "".

Definition save_options (contentType : string) : Host.SaveDialogOptions :=
  let extension := default_extension contentType in
  {| Host.title := "Save Response";
     Host.buttonLabel := "Save";
     Host.filters :=
       [ {| Host.name := "Download"; Host.extensions := [extension] |} ] |}.

Definition _handleDownloadResponseBody (this_state : State) : Prog :=
  match response this_state with
  | None => ConsoleWarn "No response to download" None Return
  | Some r =>
      match Buffer.new (Response.body r) (Response.encoding r) with
      | inl e => Throw e
      | inr bodyBuffer =>
          ShowSaveDialog (save_options (Response.contentType r))
                         (on_filename bodyBuffer)
      end
  end.

Definition componentWillReceiveProps (nextProps : Props) : Prog :=
  _getResponse (request nextProps).

Definition componentDidMount (this_props : Props) : Prog :=
  _getResponse (request this_props).

(** The props [render] hands to the body viewer. *)
Record ViewerProps := {
  v_key : string;
  v_bytes : Z;
  v_contentType : string;
  v_previewMode : string;
  v_filter : string;
  v_updateFilter : bool;
  v_body : string;
  v_encoding : string;
  v_error : bool;
  v_responseId : string;
  v_url : string
}.

Inductive View :=
| EmptyPane
| ShortcutHints
| ResponseView (shown : Response.t) (viewer : ViewerProps).

(** [render] without the loading overlay and the cookie and header
    tabs: which pane is shown, and the body viewer's props. *)
Definition render (this_props : Props) (this_state : State) : View :=
  match request this_props with
  | None => EmptyPane
  | Some _ =>
      match response this_state with
      | None => ShortcutHints
      | Some response =>
          let err := JS.truthy (Response.error response) in
          ResponseView response
            {| v_key := Response._id response;
               v_bytes := Response.bytesRead response;
               v_contentType := Response.contentType response;
               v_previewMode :=
                 if err then PREVIEW_MODE_SOURCE else previewMode this_props;
               v_filter := filter this_props;
               v_updateFilter := negb err;
               v_body :=
                 if err then default "" (Response.error response)
                 else Response.body response;
               v_encoding := Response.encoding response;
               v_error := err;
               v_responseId := Response._id response;
               v_url := Response.url response |}
      end
  end.

(** What the environment does to a mounted component. *)
Inductive Event :=
| Mount
| ReceiveProps (nextProps : Props)
| ClickDownload
| LookupResolves (i : nat)
| DialogCloses (i : nat) (filename : option string)
| WriteCompletes (i : nat) (err : option Host.IOError).

Definition step (w : World) (ev : Event) : World :=
  match ev with
  | Mount => exec (componentDidMount (props w)) w
  | ReceiveProps nextProps =>
      set_props nextProps (exec (componentWillReceiveProps nextProps) w)
  | ClickDownload => exec (_handleDownloadResponseBody (state w)) w
  | LookupResolves i =>
      match pending w !! i with
      | Some (PLookup parentId k) =>
          exec (k (Models.getLatestByParentId (db w) parentId))
               (set_pending (delete i (pending w)) w)
      | _ => w
      end
  | DialogCloses i filename =>
      match pending w !! i with
      | Some (PDialog _ k) =>
          exec (k filename) (set_pending (delete i (pending w)) w)
      | _ => w
      end
  | WriteCompletes i err =>
      match pending w !! i with
      | Some (PWrite filename data options k) =>
          let w' := set_pending (delete i (pending w)) w in
          exec (k err)
               (match err with
                | None => set_fs (Host.written (fs w) filename data options) w'
                | Some _ => w'
                end)
      | _ => w
      end
  end.

Definition steps (w : World) (evs : list Event) : World := foldl step w evs.

(** The response on screen. *)
Definition displayed (w : World) : option Response.t :=
  match render (props w) (state w) with
  | ResponseView r _ => Some r
  | _ => None
  end.

(** One download from the click to its outcome: the dialog closes with
    [filename] and, when a file was chosen, the write completes with
    [err]. *)
Definition export_run (filename : option string) (err : option Host.IOError)
  : list Event :=
  ClickDownload :: DialogCloses 0 filename
    :: (if JS.truthy filename then [WriteCompletes 0 err] else []).

(** The observations such a download leaves, from the source's three
    branches. *)
Definition export_trace (r : Response.t) (bodyBuffer : list byte)
    (filename : option string) (err : option Host.IOError) : list Obs :=
  ODialog (save_options (Response.contentType r))
    :: (if JS.truthy filename then
          OWrite (default "" filename) bodyBuffer {| Host.flag := None |}
            :: match err with
               | Some e => [OWarn "Failed to save response body" (Some e);
                            OTrack "Response" "Save Failure"]
               | None => [OTrack "Response" "Save Success"]
               end
        else [OTrack "Response" "Save Cancel"]).

(** The file system after a download that ran to its outcome. *)
Definition fs_after (w : World) (bodyBuffer : list byte)
    (filename : option string) (err : option Host.IOError)
  : gmap string (list byte) :=
  match JS.truthy filename, err with
  | true, None =>
      Host.written (fs w) (default "" filename) bodyBuffer {| Host.flag := None |}
  | _, _ => fs w
  end.


(** The continuations the component ever hands out. *)
Definition wf_pending (p : Pending) : Prop :=
  match p with
  | PLookup _ k => k = fun response => SetState {| response := response |} Return
  | PDialog _ k => ∃ bodyBuffer, k = on_filename bodyBuffer
  | PWrite _ _ _ k => k = on_written
  end.



Definition init (d : Models.Db) (f : gmap string (list byte)) (p : Props) : World :=
  {| db := d; fs := f; props := p; state := {| response := None |};
     pending := []; log := [] |}.

End Component.

End ResponsePane.

(** ** The whole pane

    [render] in full: the loading overlay, the three panes, the header tags
    and the tab labels.  [Date.now()] is an argument.  The elapsed time is a
    number of seconds with one decimal; it is kept in tenths of a second,
    and so is the threshold [REQUEST_TIME_TO_SHOW_COUNTER], a constant of
    [common/constants] that is a parameter here, as is
    [getSetCookieHeaders] of [common/misc]. *)
Module Pane.
Import ResponsePane.

Record Props := {
  base : ResponsePane.Props;
  loadStartTime : Z;
  editorLineWrapping : bool;
  editorFontSize : Z
}.

(** The text of the overlay: "Loading..." or "<elapsedTime> seconds...",
    the elapsed time in tenths. *)
Inductive OverlayText :=
| Loading
| Seconds (tenths : Z).

(** [<StatusTag>], [<TimeTag>] and [<SizeTag>]. *)
Record Header := {
  h_statusCode : Z;
  h_statusMessage : string;
  h_milliseconds : Z;
  h_bytes : Z
}.

(** A tab button's count: shown when the length is not zero. *)
Definition count_label {A} (l : list A) : option nat :=
  match length l with
  | O => None
  | n => Some n
  end.

Record Tabs := {
  t_viewer : ViewerProps;
  t_editorLineWrapping : bool;
  t_editorFontSize : Z;
  t_dropdown_previewMode : string;
  t_cookies_label : option nat;
  t_headers_label : option nat;
  t_cookies_key : string;
  t_cookies : list (string * string);
  t_headers_key : string;
  t_headers : list (string * string)
}.

Inductive View :=
| EmptyPane
| ShortcutHints (timer : option OverlayText)
| ResponseView (timer : option OverlayText) (header : Header) (tabs : Tabs).

(** What one call of [render] yields: the view, and whether it has set the
    100 ms timer that forces the next update. *)
Record Rendered := { view : View; update_scheduled : bool }.

Section Render.

Variable REQUEST_TIME_TO_SHOW_COUNTER : Z.
Variable PREVIEW_MODE_SOURCE : string.
Variable getSetCookieHeaders : list (string * string) -> list (string * string).

(** [Math.round(millis / 100)] for an integral [millis]: halves go up. *)
Definition round_hundreds (millis : Z) : Z := ((millis + 50) / 100)%Z.

(** The overlay, present while a request is in flight. *)
Definition timer (now : Z) (this_props : Props) : option OverlayText :=
  if (0 <=? loadStartTime this_props)%Z then
    let millis := (now - loadStartTime this_props - 200)%Z in
    let elapsedTime := round_hundreds millis in
    Some (if (REQUEST_TIME_TO_SHOW_COUNTER <? elapsedTime)%Z
          then Seconds elapsedTime else Loading)
  else None.

Definition render (now : Z) (this_props : Props) (this_state : State) : Rendered :=
  let timer := timer now this_props in
  let scheduled := (0 <=? loadStartTime this_props)%Z in
  match request (base this_props) with
  | None => {| view := EmptyPane; update_scheduled := scheduled |}
  | Some _ =>
      match response this_state with
      | None => {| view := ShortcutHints timer; update_scheduled := scheduled |}
      | Some response =>
          let cookieHeaders := getSetCookieHeaders (Response.headers response) in
          let err := JS.truthy (Response.error response) in
          let previewMode := previewMode (base this_props) in
          {| view :=
               ResponseView timer
                 {| h_statusCode := Response.statusCode response;
                    h_statusMessage := Response.statusMessage response;
                    h_milliseconds := Response.elapsedTime response;
                    h_bytes := Response.bytesRead response |}
                 {| t_viewer :=
                      {| v_key := Response._id response;
                         v_bytes := Response.bytesRead response;
                         v_contentType := Response.contentType response;
                         v_previewMode :=
                           if err then PREVIEW_MODE_SOURCE else previewMode;
                         v_filter := filter (base this_props);
                         v_updateFilter := negb err;
                         v_body :=
                           if err then default "" (Response.error response)
                           else Response.body response;
                         v_encoding := Response.encoding response;
                         v_error := err;
                         v_responseId := Response._id response;
                         v_url := Response.url response |};
                    t_editorLineWrapping := editorLineWrapping this_props;
                    t_editorFontSize := editorFontSize this_props;
                    t_dropdown_previewMode := previewMode;
                    t_cookies_label := count_label cookieHeaders;
                    t_headers_label := count_label (Response.headers response);
                    t_cookies_key := Response._id response;
                    t_cookies := cookieHeaders;
                    t_headers_key := Response._id response;
                    t_headers := Response.headers response |};
             update_scheduled := scheduled |}
      end
  end.

(** The overlay a view carries, if any. *)
Definition overlay (v : View) : option OverlayText :=
  match v with
  | EmptyPane => None
  | ShortcutHints t => t
  | ResponseView t _ _ => t
  end.

(** The download entry of the preview-mode dropdown exists in the response
    view only. *)
Definition has_download (v : View) : bool :=
  match v with
  | ResponseView _ _ _ => true
  | _ => false
  end.

End Render.

End Pane.

(** ** Bookkeeping over event traces *)
Module Trace.
Import ResponsePane.

Definition is_track (action : string) (o : Obs) : bool :=
  match o with
  | OTrack c a => String.eqb c "Response" && String.eqb a action
  | _ => false
  end.

Definition is_cancel : Obs -> bool := is_track "Save Cancel".
Definition is_success : Obs -> bool := is_track "Save Success".
Definition is_failure : Obs -> bool := is_track "Save Failure".

Definition is_failure_warning (o : Obs) : bool :=
  match o with
  | OWarn msg (Some _) => String.eqb msg "Failed to save response body"
  | _ => false
  end.

Definition is_missing_warning (o : Obs) : bool :=
  match o with
  | OWarn msg None => String.eqb msg "No response to download"
  | _ => false
  end.

Definition open_dialog (p : Pending) : bool :=
  match p with PDialog _ _ => true | _ => false end.

Definition open_write (p : Pending) : bool :=
  match p with PWrite _ _ _ _ => true | _ => false end.

Definition in_flight (f : Pending -> bool) (w : World) : nat :=
  length (List.filter f (pending w)).

(** Every dialog shown is still open, was cancelled, or led to one write;
    every write issued is still in flight or has reported exactly one of
    success and failure, a failure together with its warning; and there are
    no other outcome events. *)
Definition balanced (w : World) : Prop :=
  count is_dialog (log w)
    = in_flight open_dialog w + count is_cancel (log w) + count is_write (log w) ∧
  count is_write (log w)
    = in_flight open_write w + count is_success (log w) + count is_failure (log w) ∧
  count is_failure_warning (log w) = count is_failure (log w) ∧
  count is_outcome (log w)
    = count is_cancel (log w) + count is_success (log w) + count is_failure (log w).

(** The events of a download, as opposed to those of the loader. *)
Definition download_event (ev : Event) : bool :=
  match ev with
  | ClickDownload | DialogCloses _ _ | WriteCompletes _ _ => true
  | _ => false
  end.

(** Events that leave the props alone. *)
Definition keeps_props (ev : Event) : bool :=
  match ev with
  | ReceiveProps _ => false
  | _ => true
  end.

(** The file names the user has chosen in the save dialogs of a trace. *)
Fixpoint chosen (evs : list Event) : list string :=
  match evs with
  | [] => []
  | DialogCloses _ (Some f) :: evs' => f :: chosen evs'
  | _ :: evs' => chosen evs'
  end.

End Trace.

(** ** Concrete data for the examples *)
Module Examples.
Import ResponsePane.

Definition R1 : Request.t := {| Request._id := "req_1" |}.
Definition R2 : Request.t := {| Request._id := "req_2" |}.

Definition mk_response (id parent : string) (t : Z) (body enc ctype : string)
    (err : option string) : Response.t :=
  {| Response._id := id; Response.parentId := parent; Response.created := t;
     Response.statusCode := 200; Response.statusMessage := "OK";
     Response.elapsedTime := 12; Response.bytesRead := 5;
     Response.body := body; Response.encoding := enc;
     Response.contentType := ctype; Response.headers := [];
     Response.error := err; Response.url := "http://localhost/" |}.

Definition res_1 := mk_response "res_1" "req_1" 10 "SGVsbG8=" "base64" "text/plain" None.
Definition res_1_old := mk_response "res_0" "req_1" 5 "old" "utf8" "text/plain" None.
Definition res_2 := mk_response "res_2" "req_2" 20 "{}" "utf8" "application/json" None.
Definition res_rot13 := mk_response "res_3" "req_1" 30 "Uryyb" "rot13" "text/plain" None.
Definition res_failed :=
  mk_response "res_4" "req_1" 40 "" "utf8" "" (Some "Couldn't resolve host").

Definition store : Models.Db := [res_1_old; res_2; res_1].

Definition props_of (r : option Request.t) : Props :=
  {| request := r; previewMode := "friendly"; filter := "" |}.

Definition world_showing (r : Response.t) : World :=
  {| db := store; fs := ∅; props := props_of (Some R1);
     state := {| response := Some r |}; pending := []; log := [] |}.

Definition world_empty : World := init store ∅ (props_of (Some R1)).

Definition eacces : Host.IOError :=
  {| Host.code := "EACCES"; Host.message := "permission denied" |}.



(** R1 is mounted and loaded before the switch; after it the user
    downloads, the parent re-renders with R2 and the second lookup
    resolves. *)
Definition before_switch : list (Event) := [Mount; LookupResolves 0].

Definition run (w : World) (evs : list Event) : World :=
  steps Mime.standard_db w evs.

Definition on_screen (w : World) : option Response.t := displayed "source" w.

End Examples.

(** ** The response store *)
Section Store.
Import Models.

Lemma matches_eq (id : string) (r : Response.t) :
  matches id r = true ↔ Response.parentId r = id.
Proof. unfold matches. apply String.eqb_eq. Qed.

(** The characterisation of the lookup: a matching response that no
    matching response is newer than, or nothing when none matches. *)
Lemma getLatestByParentId_spec (d : Db) (id : string) :
  match getLatestByParentId d id with
  | Some r =>
      r ∈ d ∧ Response.parentId r = id ∧
      ∀ r', r' ∈ d → Response.parentId r' = id →
            (Response.created r' <= Response.created r)%Z
  | None => ∀ r, r ∈ d → Response.parentId r ≠ id
  end.
Proof.
  unfold getLatestByParentId.
  induction d as [|x d IH] using rev_ind; simpl.
  - intros r Hr. inversion Hr.
  - rewrite foldl_snoc.
    destruct (matches id x) eqn:Hx.
    + apply matches_eq in Hx.
      destruct (foldl _ None d) as [a|]; simpl.
      * destruct IH as (Ha & Hid & Hmax).
        destruct (Z.ltb_spec (Response.created a) (Response.created x)).
        -- split; [set_solver|]. split; [done|].
           intros r' [Hr'|Hr']%elem_of_app Hp.
           ++ specialize (Hmax r' Hr' Hp). lia.
           ++ apply list_elem_of_singleton in Hr'. subst. lia.
        -- split; [set_solver|]. split; [done|].
           intros r' [Hr'|Hr']%elem_of_app Hp; [by apply Hmax|].
           apply list_elem_of_singleton in Hr'. by subst.
      * split; [set_solver|]. split; [done|].
        intros r' [Hr'|Hr']%elem_of_app Hp.
        -- by destruct (IH r' Hr').
        -- apply list_elem_of_singleton in Hr'. subst. lia.
    + assert (Response.parentId x ≠ id) as Hne.
      { intros He. apply matches_eq in He. congruence. }
      destruct (foldl _ None d) as [a|].
      * destruct IH as (Ha & Hid & Hmax).
        split; [set_solver|]. split; [done|].
        intros r' [Hr'|Hr']%elem_of_app Hp; [by apply Hmax|].
        apply list_elem_of_singleton in Hr'. by subst.
      * intros r [Hr|Hr]%elem_of_app; [by apply IH|].
        apply list_elem_of_singleton in Hr. by subst.
Qed.

Lemma getLatestByParentId_None (d : Db) (id : string) :
  getLatestByParentId d id = None ↔ ∀ r, r ∈ d → Response.parentId r ≠ id.
Proof.
  pose proof (getLatestByParentId_spec d id) as H.
  destruct (getLatestByParentId d id) as [r|]; split; try done.
  intros Hno. destruct H as (Hr & Hid & _). by destruct (Hno r Hr).
Qed.

End Store.

(** ** Running method bodies *)
Section Exec.
Import ResponsePane.

(** No method body writes to the response store. *)
Lemma exec_db (p : Prog) : ∀ w, db (exec p w) = db (w).
Proof. induction p; intros w; simpl; rewrite ?IHp; auto. Qed.

(** No method body changes the props. *)
Lemma exec_props (p : Prog) : ∀ w, props (exec p w) = props w.
Proof. induction p; intros w; simpl; rewrite ?IHp; auto. Qed.

(** The file system changes only when the host completes a write. *)
Lemma exec_fs (p : Prog) : ∀ w, fs (exec p w) = fs w.
Proof. induction p; intros w; simpl; rewrite ?IHp; auto. Qed.

Lemma count_app (f : Obs → bool) (l k : list Obs) :
  count f (l ++ k) = count f l + count f k.
Proof. unfold count. by rewrite List.filter_app, length_app. Qed.

Lemma truthy_Some (s : string) : s ≠ "" → JS.truthy (Some s) = true.
Proof. by destruct s. Qed.

Lemma truthy_default (o : option string) :
  JS.truthy o = true → o = Some (default "" o) ∧ default "" o ≠ "".
Proof. by destruct o as [[|]|]. Qed.

End Exec.

(** ** The body exporter *)
Section Exporter.
Import ResponsePane.

Variable mime_db : Mime.Db.

Abbreviation step := (ResponsePane.step mime_db).
Abbreviation steps := (ResponsePane.steps mime_db).

(** With a loaded response that decodes, the click shows the dialog. *)
Lemma click_shows_dialog (w : World) (r : Response.t) (bodyBuffer : list byte) :
  response (state w) = Some r →
  Buffer.new (Response.body r) (Response.encoding r) = inr bodyBuffer →
  step w ClickDownload =
    suspend (PDialog (save_options mime_db (Response.contentType r))
                     (on_filename bodyBuffer))
            (observe (ODialog (save_options mime_db (Response.contentType r))) w).
Proof.
  intros Hr Hb. unfold ResponsePane.step, _handleDownloadResponseBody.
  by rewrite Hr, Hb.
Qed.

(** A whole download, from the click to its outcome. *)
Lemma export_run_spec (w : World) (r : Response.t) (bodyBuffer : list byte)
    (filename : option string) (err : option Host.IOError) :
  response (state w) = Some r →
  Buffer.new (Response.body r) (Response.encoding r) = inr bodyBuffer →
  steps w (export_run filename err) =
    {| db := db w; fs := fs_after w bodyBuffer filename err;
       props := props w; state := state w; pending := pending w;
       log := (log w ++ export_trace mime_db r bodyBuffer filename err)%list |}.
Proof.
  intros Hr Hb. unfold ResponsePane.steps, export_run, export_trace, fs_after.
  destruct w as [d f p s ps l]; simpl in Hr.
  destruct (JS.truthy filename) eqn:Hf; cbn [foldl];
    rewrite (click_shows_dialog _ r bodyBuffer) by done;
    cbn; unfold on_filename; rewrite Hf; cbn.
  - destruct err as [e|]; cbn;
      unfold observe, suspend, set_pending, set_fs; cbn;
      by rewrite <- !app_assoc.
  - unfold observe, suspend, set_pending; cbn. by rewrite <- !app_assoc.
Qed.

(** C1: with a loaded response whose body is "SGVsbG8=", encoding
    "base64" and content type "text/plain", once the user has chosen a
    path the handler issues one write of the bytes of "Hello" to that path
    with the default (replacing, not appending) flag; when the write
    completes without error the file holds exactly those bytes and the
    outcome recorded is "Save Success". *)
Theorem exportBody_hello_success (w : World) (r : Response.t) (path : string) :
  response (state w) = Some r →
  Response.body r = "SGVsbG8=" →
  Response.encoding r = "base64" →
  Response.contentType r = "text/plain" →
  path ≠ "" →
  let hello := Buffer.bytes_of_string "Hello" in
  let w' := steps w (export_run (Some path) None) in
  Buffer.new (Response.body r) (Response.encoding r) = inr hello ∧
  log w' = (log w ++ [ODialog (save_options mime_db "text/plain");
                      OWrite path hello {| Host.flag := None |};
                      OTrack "Response" "Save Success"])%list ∧
  Host.appending {| Host.flag := None |} = false ∧
  fs w' = <[path := hello]> (fs w) ∧
  fs w' !! path = Some hello ∧
  pending w' = pending w.
Proof.
  intros Hr Hbody Henc Hct Hpath hello w'.
  assert (Buffer.new (Response.body r) (Response.encoding r) = inr hello) as Hb.
  { by rewrite Hbody, Henc. }
  subst w'. rewrite (export_run_spec w r hello) by done.
  unfold export_trace, fs_after, Host.written.
  rewrite (truthy_Some path Hpath), Hct. simpl.
  repeat split; try done. by rewrite lookup_insert_eq.
Qed.

(** C4: with a loaded response (whose body decodes, so that the dialog is
    shown), when the dialog closes without a destination path (absent or
    empty) the handler issues no write, the file system is unchanged,
    nothing is left in flight, and the one outcome recorded is
    "Save Cancel", which is not the failure outcome. *)
Theorem exportBody_cancel (w : World) (r : Response.t) (bodyBuffer : list byte)
    (filename : option string) (err : option Host.IOError) :
  response (state w) = Some r →
  Buffer.new (Response.body r) (Response.encoding r) = inr bodyBuffer →
  JS.truthy filename = false →
  let w' := steps w (export_run filename err) in
  log w' = (log w ++ [ODialog (save_options mime_db (Response.contentType r));
                      OTrack "Response" "Save Cancel"])%list ∧
  count is_write (log w') = count is_write (log w) ∧
  fs w' = fs w ∧
  pending w' = pending w ∧
  OTrack "Response" "Save Cancel" ≠ OTrack "Response" "Save Failure".
Proof.
  intros Hr Hb Hf w'. subst w'. rewrite (export_run_spec w r bodyBuffer) by done.
  unfold export_trace, fs_after. rewrite Hf. simpl.
  repeat split; try done.
  rewrite count_app. unfold count at 2. simpl. lia.
Qed.

(** C5: when the write the handler issued for the chosen path returns an
    I/O error, the handler warns with that very error, records "Save Failure" (neither the success nor the cancel
    outcome), rejects nothing, and leaves no second write in flight. *)
Theorem exportBody_write_failure (w : World) (r : Response.t)
    (bodyBuffer : list byte) (path : string) (e : Host.IOError) :
  response (state w) = Some r →
  Buffer.new (Response.body r) (Response.encoding r) = inr bodyBuffer →
  path ≠ "" →
  let w' := steps w (export_run (Some path) (Some e)) in
  log w' = (log w ++ [ODialog (save_options mime_db (Response.contentType r));
                      OWrite path bodyBuffer {| Host.flag := None |};
                      OWarn "Failed to save response body" (Some e);
                      OTrack "Response" "Save Failure"])%list ∧
  count is_rejection (log w') = count is_rejection (log w) ∧
  count is_write (log w') = S (count is_write (log w)) ∧
  pending w' = pending w ∧
  OTrack "Response" "Save Failure" ≠ OTrack "Response" "Save Success" ∧
  OTrack "Response" "Save Failure" ≠ OTrack "Response" "Save Cancel".
Proof.
  intros Hr Hb Hpath w'. subst w'.
  rewrite (export_run_spec w r bodyBuffer) by done.
  unfold export_trace, fs_after. rewrite (truthy_Some path Hpath). simpl.
  repeat split; try done; rewrite count_app; unfold count at 2; simpl; lia.
Qed.

(** C6: with no response loaded the handler only warns: no dialog, no
    write, no rejection, nothing left in flight, file system and component
    state as before. *)
Theorem exportBody_without_response (w : World) :
  response (state w) = None →
  let w' := step w ClickDownload in
  w' = observe (OWarn "No response to download" None) w ∧
  count is_dialog (log w') = count is_dialog (log w) ∧
  count is_write (log w') = count is_write (log w) ∧
  count is_rejection (log w') = count is_rejection (log w) ∧
  count is_outcome (log w') = count is_outcome (log w) ∧
  pending w' = pending w ∧ fs w' = fs w ∧ state w' = state w.
Proof.
  intros Hr w'. subst w'.
  unfold ResponsePane.step, _handleDownloadResponseBody. rewrite Hr. simpl.
  repeat split; try done; rewrite count_app; unfold count at 2; simpl; lia.
Qed.

(** C8, amended: for a loaded response whose body decodes, a download
    that runs to its outcome leaves exactly the observations of
    [export_trace]: one dialog, at most one write, one outcome and no
    rejection; component state, props and the response store are as
    before, nothing stays in flight, and no file other than the chosen one
    changes. *)
Theorem exportBody_frame (w : World) (r : Response.t) (bodyBuffer : list byte)
    (filename : option string) (err : option Host.IOError) :
  response (state w) = Some r →
  Buffer.new (Response.body r) (Response.encoding r) = inr bodyBuffer →
  let w' := steps w (export_run filename err) in
  log w' = (log w ++ export_trace mime_db r bodyBuffer filename err)%list ∧
  count is_dialog (log w') = S (count is_dialog (log w)) ∧
  (count is_write (log w') ≤ S (count is_write (log w)))%nat ∧
  count is_outcome (log w') = S (count is_outcome (log w)) ∧
  count is_rejection (log w') = count is_rejection (log w) ∧
  state w' = state w ∧ props w' = props w ∧ db w' = db w ∧
  pending w' = pending w ∧
  ∀ p, filename ≠ Some p → fs w' !! p = fs w !! p.
Proof.
  intros Hr Hb w'. subst w'. rewrite (export_run_spec w r bodyBuffer) by done.
  cbn [log state props db pending fs].
  rewrite !count_app. unfold export_trace, fs_after, Host.written.
  destruct (JS.truthy filename) eqn:Hf; [destruct err as [e|]|];
    unfold count; cbn; repeat split; try done; try lia.
  intros p Hp. apply truthy_default in Hf as [Hf _].
  rewrite lookup_insert_ne; [done|]. intros Heq. by rewrite Heq in Hf.
Qed.

(** C9: the decode step succeeds exactly when the constructor resolves
    the encoding tag (base64, utf8 and hex among them, and the empty tag,
    which means utf8).  With a tag it does not resolve, the handler's
    promise is rejected with the constructor's [TypeError] and nothing
    else happens: no dialog, no write, nothing in flight.  With a tag it
    resolves, the decode yields bytes, nothing is rejected and the dialog
    is shown. *)
Theorem exportBody_decode (w : World) (r : Response.t) :
  response (state w) = Some r →
  let w' := step w ClickDownload in
  (Buffer.parseEncoding (Response.encoding r) = None →
     w' = observe (ORejected (Buffer.TypeError
                     ("Unknown encoding: " ++ Response.encoding r))) w ∧
     count is_dialog (log w') = count is_dialog (log w) ∧
     count is_write (log w') = count is_write (log w) ∧
     pending w' = pending w ∧ fs w' = fs w) ∧
  (∀ e, Buffer.parseEncoding (Response.encoding r) = Some e →
     Buffer.new (Response.body r) (Response.encoding r)
       = inr (Buffer.write e (Response.body r)) ∧
     count is_rejection (log w') = count is_rejection (log w) ∧
     count is_dialog (log w') = S (count is_dialog (log w))) ∧
  Buffer.parseEncoding "base64" = Some Buffer.Base64 ∧
  Buffer.parseEncoding "utf8" = Some Buffer.Utf8 ∧
  Buffer.parseEncoding "hex" = Some Buffer.Hex.
Proof.
  intros Hr w'. subst w'. split; [|split; [|done]].
  - intros He. unfold ResponsePane.step, _handleDownloadResponseBody.
    rewrite Hr. unfold Buffer.new. rewrite He. simpl.
    repeat split; try done; rewrite count_app; unfold count at 2; simpl; lia.
  - intros e He.
    assert (Buffer.new (Response.body r) (Response.encoding r)
            = inr (Buffer.write e (Response.body r))) as Hb.
    { unfold Buffer.new. by rewrite He. }
    rewrite (click_shows_dialog w r _ Hr Hb). simpl.
    repeat split; try done; rewrite count_app; unfold count at 2; simpl; lia.
Qed.

End Exporter.

(** ** Export and display of a failed response *)
Section ErrorField.
Import ResponsePane.

Variable mime_db : Mime.Db.
Variable PREVIEW_MODE_SOURCE : string.

(** C10: the download handler never reads the error field.  For a loaded
    response whose error string is set (truthy), the handler is the same
    program as for the response without it, and a download decodes and
    writes the bytes of the body field; the body viewer, on the other
    hand, is given the error text as body, the source preview mode, and no
    filter callback. *)
Theorem exportBody_ignores_error (w : World) (r : Response.t)
    (filename : option string) (err : option Host.IOError) (p : Props) :
  JS.truthy (Response.error r) = true →
  let plain := Response.set_error None r in
  _handleDownloadResponseBody mime_db {| response := Some r |}
    = _handleDownloadResponseBody mime_db {| response := Some plain |} ∧
  (∀ bodyBuffer,
     Buffer.new (Response.body r) (Response.encoding r) = inr bodyBuffer →
     let w' := steps mime_db (set_state {| response := Some r |} w)
                     (export_run filename err) in
     log w' = (log w ++ export_trace mime_db plain bodyBuffer filename err)%list ∧
     fs w' = fs_after w bodyBuffer filename err) ∧
  (∀ R, request p = Some R →
     ∃ v v',
       render PREVIEW_MODE_SOURCE p {| response := Some r |} = ResponseView r v ∧
       v_body v = default "" (Response.error r) ∧
       v_previewMode v = PREVIEW_MODE_SOURCE ∧
       v_error v = true ∧ v_updateFilter v = false ∧
       render PREVIEW_MODE_SOURCE p {| response := Some plain |}
         = ResponseView plain v' ∧
       v_body v' = Response.body r ∧ v_previewMode v' = previewMode p ∧
       v_error v' = false).
Proof.
  intros He plain. split; [done|]. split.
  - intros bodyBuffer Hb w'. subst w'.
    rewrite (export_run_spec mime_db _ r bodyBuffer) by done. by cbn.
  - intros R HR. unfold render. rewrite HR. cbn. rewrite He.
    eexists _, _. by repeat split.
Qed.

End ErrorField.

(** ** The default extension *)


(** ** The response loader *)
Section Loader.
Import ResponsePane.

Variable mime_db : Mime.Db.
Variable PREVIEW_MODE_SOURCE : string.

Abbreviation step := (ResponsePane.step mime_db).
Abbreviation steps := (ResponsePane.steps mime_db).
Abbreviation displayed := (ResponsePane.displayed PREVIEW_MODE_SOURCE).

Ltac pending_at Hwf i :=
  let Hi := fresh "Hi" in
  let Hk := fresh "Hk" in
  destruct (pending _ !! i) as [[? k|? k|? ? ? k]|] eqn:Hi; try done;
  pose proof (proj1 (Forall_lookup _ _) Hwf _ _ Hi) as Hk; simpl in Hk.

Lemma step_db (w : World) (ev : Event) : db (step w ev) = db w.
Proof.
  destruct ev as [|np| |i|i fn|i err]; simpl; rewrite ?exec_db; try done.
  - by destruct (pending w !! i) as [[]|]; rewrite ?exec_db.
  - by destruct (pending w !! i) as [[]|]; rewrite ?exec_db.
  - destruct (pending w !! i) as [[]|]; rewrite ?exec_db; try done.
    by destruct err.
Qed.

Lemma steps_db (evs : list Event) : ∀ w, db (steps w evs) = db w.
Proof.
  induction evs as [|ev evs IH]; intros w; [done|].
  unfold ResponsePane.steps in *. simpl. by rewrite IH, step_db.
Qed.

(** Every continuation in flight is one of the component's own. *)
Lemma step_wf (w : World) (ev : Event) :
  Forall wf_pending (pending w) → Forall wf_pending (pending (step w ev)).
Proof.
  intros Hwf. destruct ev as [|np| |i|i fn|i err]; simpl.
  - unfold componentDidMount, _getResponse.
    destruct (request (props w)); simpl; [by constructor|done].
  - unfold componentWillReceiveProps, _getResponse.
    destruct (request np); simpl; [by constructor|done].
  - unfold _handleDownloadResponseBody.
    destruct (response (state w)) as [r|]; simpl; [|done].
    destruct (Buffer.new _ _); simpl; [done|].
    constructor; [by eexists|done].
  - pending_at Hwf i. subst k. simpl. by apply Forall_delete.
  - pending_at Hwf i. destruct Hk as [buf ->]. unfold on_filename.
    destruct (JS.truthy fn); simpl.
    + constructor; [done|by apply Forall_delete].
    + by apply Forall_delete.
  - pending_at Hwf i. subst k. destruct err; simpl; by apply Forall_delete.
Qed.

Lemma steps_wf (evs : list Event) :
  ∀ w, Forall wf_pending (pending w) → Forall wf_pending (pending (steps w evs)).
Proof.
  induction evs as [|ev evs IH]; intros w Hwf; [done|].
  unfold ResponsePane.steps in *. simpl. by apply IH, step_wf.
Qed.





(** C3: called without a request, the loader sets the response to absent
    at once and the pane shows no response.  Called with a request, it
    starts one lookup, and when that resolves the loaded response is the
    store's latest for the request's id: a stored response with that
    parent id than which none with that parent id was created later, or
    absent when the store holds none for it. *)
Theorem resolveLatestResponse (w : World) :
  (let w' := exec (_getResponse None) w in
   response (state w') = None ∧ pending w' = pending w ∧
   displayed (set_props {| request := None; previewMode := previewMode (props w);
                           filter := filter (props w) |} w') = None) ∧
  (∀ req : Request.t,
     let w0 := exec (_getResponse (Some req)) w in
     let w' := step w0 (LookupResolves 0) in
     state w0 = state w ∧
     response (state w')
       = Models.getLatestByParentId (db w) (Request._id req) ∧
     pending w' = pending w ∧
     match response (state w') with
     | Some r =>
         r ∈ db w ∧ Response.parentId r = Request._id req ∧
         ∀ r', r' ∈ db w → Response.parentId r' = Request._id req →
               (Response.created r' <= Response.created r)%Z
     | None => ∀ r, r ∈ db w → Response.parentId r ≠ Request._id req
     end ∧
     ((∀ r, r ∈ db w → Response.parentId r ≠ Request._id req) →
      response (state w') = None)).
Proof.
  split; [done|]. intros req w0 w'.
  assert (response (state w')
          = Models.getLatestByParentId (db w) (Request._id req)) as Hres by done.
  split; [done|]. split; [done|]. split; [done|]. split.
  - rewrite Hres. apply getLatestByParentId_spec.
  - intros Hno. rewrite Hres. by apply getLatestByParentId_None.
Qed.


End Loader.

(** ** The theorems at concrete inputs *)
Section Instances.
Import ResponsePane Examples.

Lemma exportBody_hello_success_witness :
  response (state (world_showing res_1)) = Some res_1 ∧
  Response.body res_1 = "SGVsbG8=" ∧ Response.encoding res_1 = "base64" ∧
  Response.contentType res_1 = "text/plain" ∧ "/tmp/hello.txt" ≠ "" ∧
  fs (run (world_showing res_1) (export_run (Some "/tmp/hello.txt") None))
    !! "/tmp/hello.txt" = Some (Buffer.bytes_of_string "Hello").
Proof.
  repeat (split; [done|]).
  pose proof (exportBody_hello_success Mime.standard_db (world_showing res_1)
                res_1 "/tmp/hello.txt" eq_refl eq_refl eq_refl eq_refl
                ltac:(discriminate)) as H.
  cbv zeta in H. apply H.
Defined.

Lemma exportBody_cancel_witness :
  response (state (world_showing res_1)) = Some res_1 ∧
  JS.truthy (Some "") = false ∧
  count is_write (log (run (world_showing res_1) (export_run (Some "") None))) = 0.
Proof.
  repeat (split; [done|]).
  pose proof (exportBody_cancel Mime.standard_db (world_showing res_1) res_1
                (Buffer.bytes_of_string "Hello") (Some "") None
                eq_refl eq_refl eq_refl) as H.
  cbv zeta in H. apply H.
Defined.

Lemma exportBody_write_failure_witness :
  response (state (world_showing res_1)) = Some res_1 ∧ "/root/x" ≠ "" ∧
  count is_rejection
    (log (run (world_showing res_1) (export_run (Some "/root/x") (Some eacces)))) = 0.
Proof.
  repeat (split; [done|]).
  pose proof (exportBody_write_failure Mime.standard_db (world_showing res_1)
                res_1 (Buffer.bytes_of_string "Hello") "/root/x" eacces
                eq_refl eq_refl ltac:(discriminate)) as H.
  cbv zeta in H. apply H.
Defined.

Lemma exportBody_without_response_witness :
  response (state world_empty) = None ∧
  ResponsePane.step Mime.standard_db world_empty ClickDownload
    = observe (OWarn "No response to download" None) world_empty.
Proof.
  split; [done|].
  pose proof (exportBody_without_response Mime.standard_db world_empty eq_refl) as H.
  cbv zeta in H. apply H.
Defined.

Lemma exportBody_frame_witness :
  response (state (world_showing res_2)) = Some res_2 ∧
  Buffer.new (Response.body res_2) (Response.encoding res_2)
    = inr (Buffer.bytes_of_string "{}") ∧
  state (run (world_showing res_2) (export_run (Some "/tmp/a.json") None))
    = state (world_showing res_2).
Proof.
  repeat (split; [done|]).
  pose proof (exportBody_frame Mime.standard_db (world_showing res_2) res_2
                (Buffer.bytes_of_string "{}") (Some "/tmp/a.json") None
                eq_refl eq_refl) as H.
  cbv zeta in H. apply H.
Defined.

Lemma exportBody_decode_witness :
  response (state (world_showing res_rot13)) = Some res_rot13 ∧
  Buffer.parseEncoding (Response.encoding res_rot13) = None ∧
  pending (ResponsePane.step Mime.standard_db (world_showing res_rot13) ClickDownload)
    = pending (world_showing res_rot13).
Proof.
  repeat (split; [done|]).
  pose proof (exportBody_decode Mime.standard_db (world_showing res_rot13)
                res_rot13 eq_refl) as H.
  cbv zeta in H. destruct H as [H _]. by apply H.
Defined.

Lemma exportBody_ignores_error_witness :
  JS.truthy (Response.error res_failed) = true ∧
  _handleDownloadResponseBody Mime.standard_db {| response := Some res_failed |}
  = _handleDownloadResponseBody Mime.standard_db
      {| response := Some (Response.set_error None res_failed) |}.
Proof.
  split; [done|].
  pose proof (exportBody_ignores_error Mime.standard_db "source" world_empty
                res_failed None None (props_of (Some R1)) eq_refl) as H.
  cbv zeta in H. apply H.
Defined.


Lemma resolveLatestResponse_witness :
  (∀ r, r ∈ store → Response.parentId r ≠ Request._id {| Request._id := "req_9" |}) ∧
  response (state (ResponsePane.step Mime.standard_db
                     (exec (_getResponse (Some {| Request._id := "req_9" |}))
                           world_empty)
                     (LookupResolves 0))) = None.
Proof.
  assert (∀ r, r ∈ store →
               Response.parentId r ≠ Request._id {| Request._id := "req_9" |}) as Hno.
  { intros r Hr. unfold store in Hr.
    repeat (apply elem_of_cons in Hr as [->|Hr]; [done|]). inversion Hr. }
  split; [done|].
  pose proof (resolveLatestResponse Mime.standard_db "source" world_empty) as [_ H].
  specialize (H {| Request._id := "req_9" |}). cbv zeta in H.
  destruct H as (_ & _ & _ & _ & H). by apply H.
Defined.



(** C8, as stated, fails: with a loaded response whose encoding tag the
    constructor rejects, a click shows no dialog and records no outcome;
    the promise is rejected and nothing is left in flight. *)
Lemma exportBody_unsupported_encoding_no_dialog :
  response (state (world_showing res_rot13)) = Some res_rot13 ∧
  log (run (world_showing res_rot13) [ClickDownload])
    = [ORejected (Buffer.TypeError "Unknown encoding: rot13")] ∧
  pending (run (world_showing res_rot13) [ClickDownload]) = [] ∧
  count is_dialog (log (run (world_showing res_rot13) [ClickDownload])) = 0 ∧
  count is_outcome (log (run (world_showing res_rot13) [ClickDownload])) = 0.
Proof. by repeat split. Qed.

End Instances.

(** ** Invariants of event traces *)
Section Traces.
Import ResponsePane Trace.

Variable mime_db : Mime.Db.

Abbreviation step := (ResponsePane.step mime_db).
Abbreviation steps := (ResponsePane.steps mime_db).

Lemma steps_snoc (w : World) (evs : list Event) (ev : Event) :
  steps w (evs ++ [ev]) = step (steps w evs) ev.
Proof. unfold ResponsePane.steps. by rewrite foldl_snoc. Qed.

Lemma steps_app (w : World) (evs evs' : list Event) :
  steps w (evs ++ evs') = steps (steps w evs) evs'.
Proof. unfold ResponsePane.steps. by rewrite foldl_app. Qed.

(** Induction over the worlds a mounted component can be in. *)
Lemma reachable_ind (P : World → Prop) (d : Models.Db)
    (f : gmap string (list byte)) (p : Props) :
  P (init d f p) →
  (∀ w ev, Forall wf_pending (pending w) → P w → P (step w ev)) →
  ∀ evs, P (steps (init d f p) evs).
Proof.
  intros H0 Hstep evs. induction evs as [|ev evs IH] using rev_ind; [done|].
  rewrite steps_snoc. apply Hstep; [|done]. apply steps_wf. constructor.
Qed.

Lemma reachable_wf (d : Models.Db) (f : gmap string (list byte)) (p : Props)
    (evs : list Event) :
  Forall wf_pending (pending (steps (init d f p) evs)).
Proof. apply steps_wf. constructor. Qed.

Lemma filter_delete_length {A} (f : A → bool) (l : list A) (i : nat) (x : A) :
  l !! i = Some x →
  length (List.filter f l)
    = (if f x then 1 else 0) + length (List.filter f (delete i l)).
Proof.
  revert i. induction l as [|y l IH]; intros [|i] Hi; try done.
  - injection Hi as ->. simpl. by destruct (f x).
  - simpl in *. specialize (IH i Hi). destruct (f y); simpl; lia.
Qed.

Ltac entry_at Hwf i :=
  let Hi := fresh "Hi" in
  let Hk := fresh "Hk" in
  destruct (_ !! i) as [[? k|? k|? ? ? k]|] eqn:Hi; try done;
  pose proof (proj1 (Forall_lookup _ _) Hwf _ _ Hi) as Hk; simpl in Hk.

Ltac tally :=
  unfold balanced, in_flight, count, is_cancel, is_success, is_failure in *;
  simpl in *; rewrite ?List.filter_app, ?length_app; simpl; lia.

(** One event keeps the books balanced. *)
Lemma step_balanced (w : World) (ev : Event) :
  Forall wf_pending (pending w) → balanced w → balanced (step w ev).
Proof.
  intros Hwf Hb. destruct w as [d f p s ps l].
  destruct ev as [|np| |i|i fn|i err]; simpl in *.
  - unfold componentDidMount, _getResponse. destruct (request p); tally.
  - unfold componentWillReceiveProps, _getResponse. destruct (request np); tally.
  - unfold _handleDownloadResponseBody. simpl.
    destruct (response s) as [r|]; [|tally].
    destruct (Buffer.new _ _); tally.
  - entry_at Hwf i. subst k.
    pose proof (filter_delete_length open_dialog _ _ _ Hi).
    pose proof (filter_delete_length open_write _ _ _ Hi). tally.
  - entry_at Hwf i. destruct Hk as [buf ->].
    pose proof (filter_delete_length open_dialog _ _ _ Hi).
    pose proof (filter_delete_length open_write _ _ _ Hi).
    unfold on_filename. destruct (JS.truthy fn); tally.
  - entry_at Hwf i. subst k.
    pose proof (filter_delete_length open_dialog _ _ _ Hi).
    pose proof (filter_delete_length open_write _ _ _ Hi).
    destruct err; tally.
Qed.

(** X3: whatever the user and the host do to a mounted component, the
    books stay balanced: every dialog shown is still open, was cancelled or
    led to exactly one write, and every write issued is still in flight or
    has reported exactly one outcome. *)
Theorem downloads_balanced (d : Models.Db) (f : gmap string (list byte))
    (p : Props) (evs : list Event) :
  balanced (steps (init d f p) evs).
Proof.
  apply reachable_ind; [by repeat split|].
  intros w ev Hwf Hb. by apply step_balanced.
Qed.

Lemma chosen_app (evs evs' : list Event) :
  chosen (evs ++ evs') = (chosen evs ++ chosen evs')%list.
Proof.
  induction evs as [|ev evs IH]; [done|].
  destruct ev as [| | | |i [fn|]|]; simpl; by rewrite ?IH.
Qed.

(** A write enters the log only when a dialog closes with a file name. *)
Lemma step_log_writes (w : World) (ev : Event) (f : string) (dat : list byte)
    (o : Host.WriteOptions) :
  Forall wf_pending (pending w) →
  OWrite f dat o ∈ log (step w ev) →
  OWrite f dat o ∈ log w ∨
  (f ≠ "" ∧ o = {| Host.flag := None |} ∧ ∃ i, ev = DialogCloses i (Some f)).
Proof.
  intros Hwf. destruct w as [d fs p s ps l].
  destruct ev as [|np| |i|i fn|i err]; simpl in *.
  - unfold componentDidMount, _getResponse. destruct (request p); simpl; auto.
  - unfold componentWillReceiveProps, _getResponse.
    destruct (request np); simpl; auto.
  - unfold _handleDownloadResponseBody. simpl.
    destruct (response s) as [r|]; simpl; [|set_solver].
    destruct (Buffer.new _ _); simpl; set_solver.
  - destruct (ps !! i) as [[? k|? k|? ? ? k]|] eqn:Hi; simpl; auto.
    pose proof (proj1 (Forall_lookup _ _) Hwf _ _ Hi) as Hk.
    simpl in Hk. subst k. simpl. auto.
  - destruct (ps !! i) as [[? k|? k|? ? ? k]|] eqn:Hi; simpl; auto.
    pose proof (proj1 (Forall_lookup _ _) Hwf _ _ Hi) as [buf ->].
    unfold on_filename. destruct (JS.truthy fn) eqn:Hfn; simpl; [|set_solver].
    apply truthy_default in Hfn as [Hfn Hne].
    intros [Hin|Hin%list_elem_of_singleton]%elem_of_app; [by left|].
    injection Hin as -> -> ->. right. rewrite Hfn. simpl. eauto.
  - destruct (ps !! i) as [[? k|? k|? ? ? k]|] eqn:Hi; simpl; auto.
    pose proof (proj1 (Forall_lookup _ _) Hwf _ _ Hi) as Hk.
    simpl in Hk. subst k. destruct err; simpl; set_solver.
Qed.

(** X4: a mounted component only ever issues writes to a non-empty file
    name that the user chose in one of its save dialogs, and always with
    the default options, never appending. *)
Theorem writes_only_where_chosen (d : Models.Db) (fs0 : gmap string (list byte))
    (p : Props) (evs : list Event) (f : string) (dat : list byte)
    (o : Host.WriteOptions) :
  OWrite f dat o ∈ log (steps (init d fs0 p) evs) →
  f ≠ "" ∧ o = {| Host.flag := None |} ∧ Host.appending o = false ∧
  f ∈ chosen evs.
Proof.
  induction evs as [|ev evs IH] using rev_ind.
  - intros H. inversion H.
  - rewrite steps_snoc, chosen_app.
    intros [Hold|(Hne & -> & i & ->)]%step_log_writes; [| |apply reachable_wf].
    + destruct (IH Hold) as (? & ? & ? & ?). repeat split; try done. set_solver.
    + repeat split; try done. simpl. set_solver.
Qed.

Lemma step_keeps_props (w : World) (ev : Event) :
  keeps_props ev = true → props (step w ev) = props w.
Proof.
  destruct ev as [|np| |i|i fn|i err]; simpl; intros Hev;
    rewrite ?exec_props; try done.
  - by destruct (pending w !! i) as [[]|]; rewrite ?exec_props.
  - by destruct (pending w !! i) as [[]|]; rewrite ?exec_props.
  - destruct (pending w !! i) as [[]|]; rewrite ?exec_props; try done.
    by destruct err.
Qed.

Lemma steps_keep_props (evs : list Event) :
  ∀ w, forallb keeps_props evs = true → props (steps w evs) = props w.
Proof.
  induction evs as [|ev evs IH]; intros w Hevs; [done|].
  simpl in Hevs. apply andb_prop in Hevs as [Hev Hevs].
  unfold ResponsePane.steps in *. simpl. rewrite IH by done.
  by apply step_keeps_props.
Qed.

(** A download event leaves the component state alone. *)
Lemma step_download_state (w : World) (ev : Event) :
  Forall wf_pending (pending w) → download_event ev = true →
  state (step w ev) = state w.
Proof.
  intros Hwf Hev. destruct w as [d fs p s ps l].
  destruct ev as [|np| |i|i fn|i err]; try done; simpl in *.
  - unfold _handleDownloadResponseBody. simpl.
    destruct (response s) as [r|]; [|done]. by destruct (Buffer.new _ _).
  - entry_at Hwf i. destruct Hk as [buf ->]. unfold on_filename.
    by destruct (JS.truthy fn).
  - entry_at Hwf i. subst k. by destruct err.
Qed.

Lemma steps_download_state (evs : list Event) :
  ∀ w, Forall wf_pending (pending w) → forallb download_event evs = true →
       state (steps w evs) = state w.
Proof.
  induction evs as [|ev evs IH]; intros w Hwf Hevs; [done|].
  simpl in Hevs. apply andb_prop in Hevs as [Hev Hevs].
  unfold ResponsePane.steps in *. simpl.
  rewrite IH; [by apply step_download_state|by apply step_wf|done].
Qed.

Lemma download_keeps_props (ev : Event) :
  download_event ev = true → keeps_props ev = true.
Proof. by destruct ev. Qed.

End Traces.

(** ** Loader and exporter together *)
Section Interplay.
Import ResponsePane Trace.

Variable mime_db : Mime.Db.
Variable PREVIEW_MODE_SOURCE : string.

Abbreviation step := (ResponsePane.step mime_db).
Abbreviation steps := (ResponsePane.steps mime_db).
Abbreviation displayed := (ResponsePane.displayed PREVIEW_MODE_SOURCE).

(** X5: however clicks, dialog closings and write completions interleave,
    they change neither the loaded response nor the props, so the response
    on screen stays what it was. *)
Theorem downloads_keep_display (d : Models.Db) (f : gmap string (list byte))
    (p : Props) (before evs : list Event) :
  forallb download_event evs = true →
  let w := steps (init d f p) before in
  state (steps w evs) = state w ∧
  props (steps w evs) = props w ∧
  displayed (steps w evs) = displayed w.
Proof.
  intros Hevs w.
  assert (state (steps w evs) = state w) as Hs.
  { apply steps_download_state; [apply reachable_wf|done]. }
  assert (props (steps w evs) = props w) as Hp.
  { apply steps_keep_props. apply forallb_forall. intros ev Hev.
    apply download_keeps_props. by apply (proj1 (forallb_forall _ _) Hevs). }
  split; [done|]. split; [done|].
  unfold ResponsePane.displayed. by rewrite Hs, Hp.
Qed.

(** X6: when a lookup resolves, the loaded response becomes the store's
    answer for the request id the lookup was started with, whichever
    request is active by then; the props are untouched and only that lookup
    leaves the set of those in flight. *)
Theorem lookup_result_applied (d : Models.Db) (f : gmap string (list byte))
    (p : Props) (evs : list Event) (i : nat) (parentId : string)
    (k : option Response.t → Prog) :
  let w := steps (init d f p) evs in
  pending w !! i = Some (PLookup parentId k) →
  let w' := step w (LookupResolves i) in
  response (state w') = Models.getLatestByParentId d parentId ∧
  props w' = props w ∧
  pending w' = delete i (pending w) ∧
  log w' = log w.
Proof.
  intros w Hi w'. subst w'.
  pose proof (reachable_wf mime_db d f p evs) as Hwf. fold w in Hwf.
  pose proof (proj1 (Forall_lookup _ _) Hwf _ _ Hi) as Hk. simpl in Hk.
  assert (db w = d) as Hdb by apply steps_db.
  simpl. rewrite Hi. subst k. simpl. by rewrite Hdb.
Qed.

(** X10: when the new props select no request, the loaded response is
    cleared at once without a lookup, and from then on, until new props
    arrive, nothing is on screen, whatever lookups started earlier resolve
    and whatever downloads go on. *)
Theorem deselect_clears (w : World) (p : Props) (evs : list Event) :
  request p = None →
  forallb keeps_props evs = true →
  let w1 := step w (ReceiveProps p) in
  response (state w1) = None ∧ pending w1 = pending w ∧
  request (props (steps w1 evs)) = None ∧
  displayed (steps w1 evs) = None.
Proof.
  intros Hp Hevs w1.
  assert (props (steps w1 evs) = p) as Hprops.
  { by rewrite steps_keep_props. }
  subst w1. simpl in *. unfold componentWillReceiveProps, _getResponse in *.
  rewrite Hp in *. simpl in *.
  repeat split; try done; [by rewrite Hprops|].
  unfold ResponsePane.displayed, render. by rewrite Hprops, Hp.
Qed.

(** X1: a download saves the body that was loaded when the user clicked.
    If the active request changes and its lookup resolves while the save
    dialog is open, the file chosen afterwards still receives the bytes
    decoded at the click, not those of the response loaded by then. *)
Theorem download_saves_clicked_body (w : World) (r : Response.t)
    (bodyBuffer : list byte) (p2 : Props) (R2 : Request.t) (path : string) :
  response (state w) = Some r →
  Buffer.new (Response.body r) (Response.encoding r) = inr bodyBuffer →
  request p2 = Some R2 →
  path ≠ "" →
  let w' := steps w [ClickDownload; ReceiveProps p2; LookupResolves 0;
                     DialogCloses 0 (Some path); WriteCompletes 0 None] in
  response (state w') = Models.getLatestByParentId (db w) (Request._id R2) ∧
  fs w' = <[path := bodyBuffer]> (fs w) ∧
  log w' = (log w ++ [ODialog (save_options mime_db (Response.contentType r));
                      OWrite path bodyBuffer {| Host.flag := None |};
                      OTrack "Response" "Save Success"])%list ∧
  pending w' = pending w.
Proof.
  intros Hr Hb HR2 Hpath w'. subst w'.
  unfold ResponsePane.steps. cbn [foldl].
  rewrite (click_shows_dialog mime_db w r bodyBuffer Hr Hb).
  destruct w as [d f p s ps l]. simpl in *.
  unfold componentWillReceiveProps, _getResponse. rewrite HR2. simpl.
  unfold on_filename. rewrite (truthy_Some path Hpath). simpl.
  repeat split; try done. by rewrite <- !app_assoc.
Qed.

(** X2: nothing guards against overlapping downloads: with a loaded
    response that decodes, [n] clicks in a row open [n] save dialogs, all
    in flight at once, and record no outcome yet. *)
Theorem clicks_open_dialogs (n : nat) :
  ∀ (w : World) (r : Response.t) (bodyBuffer : list byte),
    response (state w) = Some r →
    Buffer.new (Response.body r) (Response.encoding r) = inr bodyBuffer →
    let w' := steps w (replicate n ClickDownload) in
    count is_dialog (log w') = n + count is_dialog (log w) ∧
    in_flight open_dialog w' = n + in_flight open_dialog w ∧
    count is_outcome (log w') = count is_outcome (log w) ∧
    state w' = state w.
Proof.
  induction n as [|n IH]; intros w r buf Hr Hb; [done|].
  unfold ResponsePane.steps in *. cbn [replicate foldl].
  rewrite (click_shows_dialog mime_db w r buf Hr Hb).
  destruct (IH (suspend (PDialog (save_options mime_db (Response.contentType r))
                                 (on_filename buf))
                        (observe (ODialog (save_options mime_db (Response.contentType r))) w))
               r buf Hr Hb) as (Hd & Hf & Ho & Hs).
  cbv zeta in *. rewrite Hd, Hf, Ho, Hs. unfold in_flight. simpl.
  rewrite !count_app. unfold count at 2 4. simpl. repeat split; try done; lia.
Qed.

End Interplay.

(** ** Rendering *)
Section Rendering.
Import ResponsePane Trace.

Variable mime_db : Mime.Db.
Variable REQUEST_TIME_TO_SHOW_COUNTER : Z.
Variable PREVIEW_MODE_SOURCE : string.
Variable getSetCookieHeaders : list (string * string) → list (string * string).

Abbreviation timer := (Pane.timer REQUEST_TIME_TO_SHOW_COUNTER).
Abbreviation render_pane :=
  (Pane.render REQUEST_TIME_TO_SHOW_COUNTER PREVIEW_MODE_SOURCE getSetCookieHeaders).

Local Open Scope Z_scope.

Lemma round_hundreds_bounds (millis : Z) :
  100 * Pane.round_hundreds millis - 50 <= millis
  < 100 * Pane.round_hundreds millis + 50.
Proof.
  unfold Pane.round_hundreds.
  pose proof (Z.div_mod (millis + 50) 100 ltac:(lia)).
  pose proof (Z.mod_pos_bound (millis + 50) 100 ltac:(lia)). lia.
Qed.

(** X8: while a request is in flight, the overlay reads "Loading..." until
    250 ms plus the threshold have passed since the load started, and from
    then on it shows the elapsed time less 200 ms, rounded to the nearest
    tenth of a second. *)
Theorem counter_threshold (now : Z) (p : Pane.Props) :
  0 <= Pane.loadStartTime p →
  let elapsed := now - Pane.loadStartTime p in
  (timer now p = Some Pane.Loading ↔
     elapsed < 100 * REQUEST_TIME_TO_SHOW_COUNTER + 250) ∧
  (∀ t, timer now p = Some (Pane.Seconds t) ↔
     100 * REQUEST_TIME_TO_SHOW_COUNTER + 250 <= elapsed ∧
     t = Pane.round_hundreds (elapsed - 200)) ∧
  (∀ t, timer now p = Some (Pane.Seconds t) →
     100 * t - 50 <= elapsed - 200 < 100 * t + 50).
Proof.
  intros Hload elapsed. unfold Pane.timer.
  destruct (Z.leb_spec 0 (Pane.loadStartTime p)); [|lia].
  fold elapsed.
  pose proof (round_hundreds_bounds (elapsed - 200)) as Hb.
  set (q := Pane.round_hundreds (elapsed - 200)) in *. clearbody q.
  destruct (Z.ltb_spec REQUEST_TIME_TO_SHOW_COUNTER q) as [Hlt|Hge].
  - split; [split; [done|intros; exfalso; lia]|]. split.
    + intros t. split.
      * intros [= <-]. split; [lia|done].
      * by intros [_ ->].
    + by intros t [= <-].
  - split; [split; [intros; lia|done]|]. split.
    + intros t. split; [done|]. intros [? ->]. exfalso. lia.
    + done.
Qed.

(** X9: the overlay is part of the view exactly when a request is selected
    and a load is in flight, over the shortcut hints and over a loaded
    response alike; with no request selected there is no overlay although
    the refresh timer is still set.  The download entry is rendered exactly
    when a request is selected and a response is loaded. *)
Theorem overlay_shown (now : Z) (p : Pane.Props) (s : State) :
  let r := render_pane now p s in
  (Pane.update_scheduled r = true ↔ 0 <= Pane.loadStartTime p) ∧
  (is_Some (Pane.overlay (Pane.view r)) ↔
     is_Some (request (Pane.base p)) ∧ 0 <= Pane.loadStartTime p) ∧
  (Pane.has_download (Pane.view r) = true ↔
     is_Some (request (Pane.base p)) ∧ is_Some (response s)) ∧
  (request (Pane.base p) = None → Pane.view r = Pane.EmptyPane).
Proof.
  intros r. subst r. unfold Pane.render, Pane.timer.
  destruct (Z.leb_spec 0 (Pane.loadStartTime p)) as [Hl|Hl];
    destruct (request (Pane.base p)) as [R|];
    destruct (response s) as [res|]; simpl;
    repeat split; try done; try lia;
    try (intros [? ?]; try lia; by apply is_Some_None in H);
    try (intros ?; by apply is_Some_None in H);
    try (intros [? ?]; by apply is_Some_None in H0);
    try (intros ?; split; [done|lia]);
    try by eexists.
Qed.

(** X7: the warning branch of the download handler cannot be reached
    through the pane: whenever the download entry is rendered, a click
    either shows the save dialog or is rejected by the decoder, and never
    logs the missing-response warning. *)
Theorem download_entry_never_warns (now : Z) (p : Pane.Props) (w : World) :
  Pane.has_download (Pane.view (render_pane now p (state w))) = true →
  let w' := ResponsePane.step mime_db w ClickDownload in
  count is_missing_warning (log w') = count is_missing_warning (log w) ∧
  (count is_dialog (log w') = S (count is_dialog (log w)) ∨
   count is_rejection (log w') = S (count is_rejection (log w))).
Proof.
  intros Hd w'. subst w'.
  assert (∃ r, response (state w) = Some r) as [r Hr].
  { unfold Pane.render in Hd. destruct (request (Pane.base p)); [|done].
    destruct (response (state w)); [by eexists|done]. }
  simpl. unfold _handleDownloadResponseBody. rewrite Hr.
  destruct (Buffer.new _ _); simpl; unfold count;
    rewrite !List.filter_app, !length_app; simpl;
    (split; [lia|]); [right|left]; lia.
Qed.

End Rendering.

(** ** Further instances *)
Section MoreInstances.
Import ResponsePane Trace Examples.

Lemma download_saves_clicked_body_witness :
  response (state (world_showing res_1)) = Some res_1 ∧
  Buffer.new (Response.body res_1) (Response.encoding res_1)
    = inr (Buffer.bytes_of_string "Hello") ∧
  request (props_of (Some R2)) = Some R2 ∧ "/tmp/hello.txt" ≠ "" ∧
  response (state (run (world_showing res_1)
                       [ClickDownload; ReceiveProps (props_of (Some R2));
                        LookupResolves 0; DialogCloses 0 (Some "/tmp/hello.txt");
                        WriteCompletes 0 None])) = Some res_2 ∧
  fs (run (world_showing res_1)
          [ClickDownload; ReceiveProps (props_of (Some R2));
           LookupResolves 0; DialogCloses 0 (Some "/tmp/hello.txt");
           WriteCompletes 0 None])
    = <[ "/tmp/hello.txt" := Buffer.bytes_of_string "Hello" ]> ∅.
Proof.
  repeat (split; [done|]).
  pose proof (download_saves_clicked_body Mime.standard_db (world_showing res_1)
                res_1 (Buffer.bytes_of_string "Hello") (props_of (Some R2)) R2
                "/tmp/hello.txt" eq_refl eq_refl eq_refl ltac:(discriminate)) as H.
  cbv zeta in H. destruct H as (_ & H & _). exact H.
Defined.

Lemma clicks_open_dialogs_witness :
  response (state (world_showing res_1)) = Some res_1 ∧
  Buffer.new (Response.body res_1) (Response.encoding res_1)
    = inr (Buffer.bytes_of_string "Hello") ∧
  in_flight open_dialog (run (world_showing res_1) (replicate 3 ClickDownload))
    = 3 + in_flight open_dialog (world_showing res_1).
Proof.
  repeat (split; [done|]).
  pose proof (clicks_open_dialogs Mime.standard_db 3 (world_showing res_1) res_1
                (Buffer.bytes_of_string "Hello") eq_refl eq_refl) as H.
  cbv zeta in H. apply H.
Defined.

Lemma writes_only_where_chosen_witness :
  OWrite "/tmp/x" (Buffer.bytes_of_string "Hello") {| Host.flag := None |}
    ∈ log (run (init store ∅ (props_of (Some R1)))
               [Mount; LookupResolves 0; ClickDownload;
                DialogCloses 0 (Some "/tmp/x")]) ∧
  "/tmp/x" ∈ chosen [Mount; LookupResolves 0; ClickDownload;
                     DialogCloses 0 (Some "/tmp/x")].
Proof.
  assert (OWrite "/tmp/x" (Buffer.bytes_of_string "Hello") {| Host.flag := None |}
            ∈ log (run (init store ∅ (props_of (Some R1)))
                       [Mount; LookupResolves 0; ClickDownload;
                        DialogCloses 0 (Some "/tmp/x")])) as Hin.
  { apply list_elem_of_In. simpl. right. left. reflexivity. }
  split; [exact Hin|].
  apply (writes_only_where_chosen Mime.standard_db store ∅ (props_of (Some R1))
           _ _ _ _ Hin).
Defined.

Lemma downloads_keep_display_witness :
  forallb download_event [ClickDownload; DialogCloses 0 None] = true ∧
  state (run (run (init store ∅ (props_of (Some R1))) before_switch)
             [ClickDownload; DialogCloses 0 None])
    = state (run (init store ∅ (props_of (Some R1))) before_switch).
Proof.
  split; [done|].
  pose proof (downloads_keep_display Mime.standard_db "source" store ∅
                (props_of (Some R1)) before_switch
                [ClickDownload; DialogCloses 0 None] eq_refl) as H.
  cbv zeta in H. apply H.
Defined.

Lemma lookup_result_applied_witness :
  pending (run (init store ∅ (props_of (Some R1)))
               [Mount; ReceiveProps (props_of (Some R2))]) !! 1
    = Some (PLookup "req_1"
              (fun response => SetState {| response := response |} Return)) ∧
  request (props (run (init store ∅ (props_of (Some R1)))
                      [Mount; ReceiveProps (props_of (Some R2)); LookupResolves 1]))
    = Some R2 ∧
  response (state (run (init store ∅ (props_of (Some R1)))
                       [Mount; ReceiveProps (props_of (Some R2)); LookupResolves 1]))
    = Models.getLatestByParentId store "req_1".
Proof.
  repeat (split; [done|]).
  pose proof (lookup_result_applied Mime.standard_db store ∅ (props_of (Some R1))
                [Mount; ReceiveProps (props_of (Some R2))] 1 "req_1" _ eq_refl) as H.
  cbv zeta in H. apply H.
Defined.

Lemma download_entry_never_warns_witness :
  Pane.has_download
    (Pane.view (Pane.render 10 "source" (fun hs => hs) 0
                  {| Pane.base := props_of (Some R1); Pane.loadStartTime := -1;
                     Pane.editorLineWrapping := true; Pane.editorFontSize := 12 |}
                  (state (world_showing res_1)))) = true ∧
  count is_missing_warning
    (log (ResponsePane.step Mime.standard_db (world_showing res_1) ClickDownload))
    = count is_missing_warning (log (world_showing res_1)).
Proof.
  split; [done|].
  pose proof (download_entry_never_warns Mime.standard_db 10 "source" (fun hs => hs) 0
                {| Pane.base := props_of (Some R1); Pane.loadStartTime := -1;
                   Pane.editorLineWrapping := true; Pane.editorFontSize := 12 |}
                (world_showing res_1) eq_refl) as H.
  cbv zeta in H. apply H.
Defined.

Lemma counter_threshold_witness :
  (0 <= 500)%Z ∧
  Pane.timer 10 2000
    {| Pane.base := props_of (Some R1); Pane.loadStartTime := 500;
       Pane.editorLineWrapping := true; Pane.editorFontSize := 12 |}
    = Some (Pane.Seconds 13).
Proof.
  split; [lia|].
  pose proof (counter_threshold 10 2000
                {| Pane.base := props_of (Some R1); Pane.loadStartTime := 500;
                   Pane.editorLineWrapping := true; Pane.editorFontSize := 12 |}
                ltac:(simpl; lia)) as H.
  cbv zeta in H. destruct H as (_ & H & _). apply H. simpl. split; [lia|done].
Defined.

Lemma deselect_clears_witness :
  request (props_of None) = None ∧
  forallb keeps_props [LookupResolves 0; ClickDownload] = true ∧
  on_screen (run (ResponsePane.step Mime.standard_db (world_showing res_1)
                    (ReceiveProps (props_of None)))
                 [LookupResolves 0; ClickDownload]) = None.
Proof.
  repeat (split; [done|]).
  pose proof (deselect_clears Mime.standard_db "source" (world_showing res_1)
                (props_of None) [LookupResolves 0; ClickDownload]
                eq_refl eq_refl) as H.
  cbv zeta in H. apply H.
Defined.

End MoreInstances.
